(** * Tracing bootstrap and span scope helper ([api/utils/tracing.py])

    A shallow embedding of the module that configures distributed tracing
    for the API service, and the properties of its bootstrap routine, its
    three manual-span helpers and its [TracingSpan] context manager.

    The module is glue code over a tracing SDK.  The SDK is modelled by the
    state it keeps for this module (the process-wide tracer provider, the
    activated instrumentations, the span objects) and by a log of the calls
    made into it; every call into the SDK may raise. *)

From stdpp Require Import base option list strings gmap.

Open Scope string_scope.
Open Scope list_scope.

(** ** Python values *)

(** The value of a span attribute. *)
Inductive AttrValue :=
| AStr (s : string)
| AInt (n : Z)
| ABool (b : bool).

(** A [dict] from attribute names to values.  Its keys are unique; the order
    in which [items()] enumerates them is not observable in the final state
    of a span, and [map_to_list] stands in for it. *)
Abbreviation Attributes := (gmap string AttrValue).

(** An exception instance.  [exc_bool] is what [bool(e)] gives: [true] for
    every built-in exception, and for every class that defines neither
    [__bool__] nor [__len__]. *)
Record PyException := {
  exc_type : string;
  exc_message : string;
  exc_bool : bool
}.

Definition AttributeError (missing : string) : PyException :=
  {| exc_type := "AttributeError";
     exc_message := "'NoneType' object has no attribute '" +:+ missing +:+ "'";
     exc_bool := true |}.

(** The truth value of an optional exception, as [if exc_val:] tests it:
    [None] is false, an instance is what its own conversion says. *)
Definition truthy (exc_val : option PyException) : bool :=
  match exc_val with
  | None => false
  | Some e => exc_bool e
  end.

(** ** The tracing SDK *)

Module Sdk.

(** Modelled from the spec: the resource descriptor, a mapping from
    attribute name to value that identifies the service. *)
Record Resource := { resource_attributes : gmap string string }.

(** Modelled from the spec: the exporter configuration, an endpoint and a
    transport-security flag. *)
Record OTLPSpanExporter := { endpoint : string; insecure : bool }.

(** Modelled from the spec: the batching processor wraps one exporter. *)
Inductive SpanProcessor :=
| BatchSpanProcessor (exporter : OTLPSpanExporter).

(** Modelled from the spec: the tracer provider owns the resource
    descriptor and the list of span processors. *)
Record TracerProvider := {
  resource : Resource;
  span_processors : list SpanProcessor
}.

(** The five collaborator libraries whose instrumentation is activated. *)
Inductive Instrumentation :=
| FastAPIInstrumentation
| RedisInstrumentation
| SQLAlchemyInstrumentation
| ElasticsearchInstrumentation
| RequestsInstrumentation.

Record Tracer := { instrumenting_module_name : string }.

(** What happened to a span, in order: exceptions recorded on it, and
    calls of [end()]. *)
Inductive SpanEvent :=
| ExceptionEvent (e : PyException) (attributes : Attributes)
| EndEvent.

(** Modelled from the spec: a span has a name, a mapping of attributes
    (keys unique, last write wins), an open/closed state and the
    exceptions recorded on it. *)
Record Span := {
  span_name : string;
  span_attributes : Attributes;
  span_events : list SpanEvent
}.

(** Span objects live in a store and are passed around by reference. *)
Abbreviation SpanRef := nat.

(** Semantic-convention keys of the resource attributes. *)
Module ResourceAttributes.
(** Modelled from the spec: the three resource attribute names. *)
Definition SERVICE_NAME : string := "service.name".
Definition SERVICE_VERSION : string := "service.version".
Definition DEPLOYMENT_ENVIRONMENT : string := "deployment.environment".
End ResourceAttributes.

(** The calls [tracing.py] makes into the SDK, with their arguments. *)
Inductive Call :=
| CallResourceCreate (attributes : gmap string string)
| CallTracerProvider (r : Resource)
| CallSetTracerProvider (p : TracerProvider)
| CallOTLPSpanExporter (endpoint : string) (insecure : bool)
| CallBatchSpanProcessor (e : OTLPSpanExporter)
| CallGetTracerProvider
| CallAddSpanProcessor (sp : SpanProcessor)
| CallInstrument (i : Instrumentation)
| CallGetTracer (module : string)
| CallStartSpan (name : string) (attributes : Attributes)
| CallSetAttribute (s : SpanRef) (key : string) (value : AttrValue)
| CallRecordException (s : SpanRef) (e : PyException) (attributes : Attributes)
| CallEnd (s : SpanRef).

End Sdk.
Import Sdk.

(** ** The process state *)

Record World := {
  environ : gmap string string;          (* os.environ *)
  tracer_provider : option TracerProvider; (* the process-wide default *)
  instrumented : list Instrumentation;   (* activations, in order *)
  spans : list Span;                     (* the span objects *)
  sdk_calls : list Call                  (* every call made, in order *)
}.

Definition with_tracer_provider (p : option TracerProvider) (w : World) : World :=
  {| environ := environ w; tracer_provider := p;
     instrumented := instrumented w; spans := spans w;
     sdk_calls := sdk_calls w |}.

Definition with_instrumented (l : list Instrumentation) (w : World) : World :=
  {| environ := environ w; tracer_provider := tracer_provider w;
     instrumented := l; spans := spans w; sdk_calls := sdk_calls w |}.

Definition with_spans (l : list Span) (w : World) : World :=
  {| environ := environ w; tracer_provider := tracer_provider w;
     instrumented := instrumented w; spans := l; sdk_calls := sdk_calls w |}.

Definition with_sdk_calls (l : list Call) (w : World) : World :=
  {| environ := environ w; tracer_provider := tracer_provider w;
     instrumented := instrumented w; spans := spans w; sdk_calls := l |}.

(** Every call into the SDK is appended to the log, whether it raises or
    not. *)
Definition log_call (c : Call) (w : World) : World :=
  with_sdk_calls (sdk_calls w ++ [c]) w.

(** ** What a successful SDK call does *)

Definition provider_add (sp : SpanProcessor) (p : TracerProvider) : TracerProvider :=
  {| resource := resource p; span_processors := span_processors p ++ [sp] |}.

Definition new_span (name : string) (attributes : Attributes) : Span :=
  {| span_name := name; span_attributes := attributes; span_events := [] |}.

Definition span_set (key : string) (value : AttrValue) (sp : Span) : Span :=
  {| span_name := span_name sp;
     span_attributes := <[key := value]> (span_attributes sp);
     span_events := span_events sp |}.

Definition span_add_event (ev : SpanEvent) (sp : Span) : Span :=
  {| span_name := span_name sp;
     span_attributes := span_attributes sp;
     span_events := span_events sp ++ [ev] |}.

(** Modelled from the spec: installing a provider makes it the process-wide
    default; a processor is attached to that default; an activation is
    recorded; a started span is a new object; attributes, recorded
    exceptions and [end()] change the span they are called on.  The
    constructors and getters change nothing. *)
Definition sdk_effect (c : Call) (w : World) : World :=
  match c with
  | CallSetTracerProvider p => with_tracer_provider (Some p) w
  | CallAddSpanProcessor sp =>
      with_tracer_provider (provider_add sp <$> tracer_provider w) w
  | CallInstrument i => with_instrumented (instrumented w ++ [i]) w
  | CallStartSpan name attributes =>
      with_spans (spans w ++ [new_span name attributes]) w
  | CallSetAttribute s key value =>
      with_spans (alter (span_set key value) s (spans w)) w
  | CallRecordException s e attributes =>
      with_spans (alter (span_add_event (ExceptionEvent e attributes)) s (spans w)) w
  | CallEnd s =>
      with_spans (alter (span_add_event EndEvent) s (spans w)) w
  | CallResourceCreate _ | CallTracerProvider _ | CallOTLPSpanExporter _ _
  | CallBatchSpanProcessor _ | CallGetTracerProvider | CallGetTracer _ => w
  end.

(** Views of a span's history. *)
Definition is_end (ev : SpanEvent) : bool :=
  match ev with EndEvent => true | ExceptionEvent _ _ => false end.

Definition end_count (sp : Span) : nat :=
  length (filter (fun ev => is_end ev = true) (span_events sp)).

Definition is_ended (sp : Span) : bool := bool_decide (0 < end_count sp).

Fixpoint recorded_exceptions (evs : list SpanEvent) : list (PyException * Attributes) :=
  match evs with
  | [] => []
  | ExceptionEvent e a :: evs' => (e, a) :: recorded_exceptions evs'
  | EndEvent :: evs' => recorded_exceptions evs'
  end.

(** ** Computations that may raise *)

Inductive outcome (A : Type) :=
| Returned (a : A)
| Raised (e : PyException).
Arguments Returned {A} a.
Arguments Raised {A} e.

Definition M (A : Type) : Type := World -> outcome A * World.

Definition ret {A} (a : A) : M A := fun w => (Returned a, w).

Definition raise {A} (e : PyException) : M A := fun w => (Raised e, w).

Definition bind {A B} (m : M A) (k : A -> M B) : M B :=
  fun w =>
    match m w with
    | (Returned a, w') => k a w'
    | (Raised e, w') => (Raised e, w')
    end.

Notation "'let*' x ':=' m 'in' k" := (bind m (fun x => k))
  (at level 10, x binder, m at level 200, k at level 200).
Notation "m ';;' k" := (bind m (fun _ => k))
  (at level 100, k at level 200, right associativity).

(** [for x in xs: body x] *)
Fixpoint for_each {A} (xs : list A) (body : A -> M unit) : M unit :=
  match xs with
  | [] => ret tt
  | x :: xs' => body x ;; for_each xs' body
  end.

(** ** The module [tracing.py] *)

Section Tracing.

(** Which calls into the SDK raise, and what: [faults c = Some e] when the
    call [c] raises [e].  The SDK and the instrumented libraries are not
    part of this module, so their failures are a parameter. *)
Variable faults : Call -> option PyException.

(** One call into the SDK: it is logged; if it raises, nothing else
    happens; otherwise it has its effect. *)
Definition sdk_call (c : Call) : M unit :=
  fun w =>
    match faults c with
    | Some e => (Raised e, log_call c w)
    | None => (Returned tt, sdk_effect c (log_call c w))
    end.

(** [os.getenv(key, default)]: the default stands in only for a variable
    that is not set. *)
Definition os_getenv (key fallback : string) : M string :=
  fun w =>
    match environ w !! key with
    | Some value => (Returned value, w)
    | None => (Returned fallback, w)
    end.

Definition Resource_create (attributes : gmap string string) : M Resource :=
  sdk_call (CallResourceCreate attributes) ;;
  ret {| resource_attributes := attributes |}.

Definition TracerProvider_init (r : Resource) : M TracerProvider :=
  sdk_call (CallTracerProvider r) ;;
  ret {| resource := r; span_processors := [] |}.

Definition trace_set_tracer_provider (p : TracerProvider) : M unit :=
  sdk_call (CallSetTracerProvider p).

Definition OTLPSpanExporter_init (endpoint : string) (insecure : bool)
  : M OTLPSpanExporter :=
  sdk_call (CallOTLPSpanExporter endpoint insecure) ;;
  ret {| endpoint := endpoint; insecure := insecure |}.

Definition BatchSpanProcessor_init (e : OTLPSpanExporter) : M SpanProcessor :=
  sdk_call (CallBatchSpanProcessor e) ;;
  ret (BatchSpanProcessor e).

(** [trace.get_tracer_provider().add_span_processor(sp)]: the receiver is
    the process-wide default provider. *)
Definition trace_get_tracer_provider : M unit :=
  sdk_call CallGetTracerProvider.

Definition add_span_processor (sp : SpanProcessor) : M unit :=
  sdk_call (CallAddSpanProcessor sp).

(** [XInstrumentation().instrument()] *)
Definition instrument (i : Instrumentation) : M unit :=
  sdk_call (CallInstrument i).

Definition trace_get_tracer (module : string) : M Tracer :=
  sdk_call (CallGetTracer module) ;;
  ret {| instrumenting_module_name := module |}.

(** [tracer.start_span(name, attributes=attributes)]: the new span object
    is appended to the store and its reference returned. *)
Definition Tracer_start_span (tracer : Tracer) (name : string)
    (attributes : Attributes) : M SpanRef :=
  fun w =>
    match sdk_call (CallStartSpan name attributes) w with
    | (Returned _, w') => (Returned (length (spans w)), w')
    | (Raised e, w') => (Raised e, w')
    end.

(** A method call [span.method(...)]: on [None] it raises
    [AttributeError], on a span object it is the SDK's call. *)
Definition invoke (span : option SpanRef) (method : string)
    (c : SpanRef -> Call) : M unit :=
  match span with
  | Some s => sdk_call (c s)
  | None => raise (AttributeError method)
  end.

Definition Span_set_attribute (span : option SpanRef) (key : string)
    (value : AttrValue) : M unit :=
  invoke span "set_attribute" (fun s => CallSetAttribute s key value).

Definition Span_record_exception (span : option SpanRef) (e : PyException)
    (attributes : Attributes) : M unit :=
  invoke span "record_exception" (fun s => CallRecordException s e attributes).

Definition Span_end (span : option SpanRef) : M unit :=
  invoke span "end" CallEnd.

(** *** [setup_tracing] *)

(** The dictionary literal handed to [Resource.create]. *)
Definition resource_dict (environment : string) : gmap string string :=
  <[ResourceAttributes.DEPLOYMENT_ENVIRONMENT := environment]>
    (<[ResourceAttributes.SERVICE_VERSION := "1.0.0"]>
      (<[ResourceAttributes.SERVICE_NAME := "tiktok-toe-api"]> ∅)).

Definition setup_tracing : M unit :=
  let* environment := os_getenv "ENVIRONMENT" "development" in
  let* resource := Resource_create (resource_dict environment) in
  let* provider := TracerProvider_init resource in
  trace_set_tracer_provider provider ;;
  let* otlp_exporter :=
    OTLPSpanExporter_init "http://otel-collector:4317" true in
  let* span_processor := BatchSpanProcessor_init otlp_exporter in
  trace_get_tracer_provider ;;
  add_span_processor span_processor ;;
  instrument FastAPIInstrumentation ;;
  instrument RedisInstrumentation ;;
  instrument SQLAlchemyInstrumentation ;;
  instrument ElasticsearchInstrumentation ;;
  instrument RequestsInstrumentation.

(** *** The manual span helpers *)

(** [__name__] of this module. *)
Definition __name__ : string := "api.utils.tracing".

Definition create_custom_span (name : string) (attributes : option Attributes)
  : M SpanRef :=
  let* tracer := trace_get_tracer __name__ in
  let attributes :=
    match attributes with
    | None => ∅
    | Some d => d
    end in
  Tracer_start_span tracer name attributes.

(** [attributes] may be [None]; then [attributes.items()] raises. *)
Definition add_span_attributes (span : option SpanRef)
    (attributes : option Attributes) : M unit :=
  match attributes with
  | None => raise (AttributeError "items")
  | Some d =>
      for_each (map_to_list d)
        (fun '(key, value) => Span_set_attribute span key value)
  end.

Definition record_exception (span : option SpanRef) (exception : PyException)
    (attributes : option Attributes) : M unit :=
  let attributes :=
    match attributes with
    | None => ∅
    | Some d => d
    end in
  Span_record_exception span exception attributes.

(** *** The context manager [TracingSpan] *)

Record TracingSpan := {
  ts_name : string;
  ts_attributes : Attributes;
  ts_span : option SpanRef
}.

(** [attributes or {}]: [None] and the empty dict both give an empty dict. *)
Definition TracingSpan_init (name : string) (attributes : option Attributes)
  : TracingSpan :=
  {| ts_name := name;
     ts_attributes :=
       match attributes with
       | None => ∅
       | Some d => if decide (d = ∅) then ∅ else d
       end;
     ts_span := None |}.

(** [__enter__] stores the new span in [self] and returns it. *)
Definition TracingSpan_enter (self : TracingSpan) : M (TracingSpan * SpanRef) :=
  let* span := create_custom_span (ts_name self) (Some (ts_attributes self)) in
  ret ({| ts_name := ts_name self;
          ts_attributes := ts_attributes self;
          ts_span := Some span |}, span).

(** [__exit__(exc_type, exc_val, exc_tb)]; it returns [None]. *)
Definition TracingSpan_exit (self : TracingSpan)
    (exc_val : option PyException) : M unit :=
  match exc_val with
  | Some e =>
      if exc_bool e then record_exception (ts_span self) e None else ret tt
  | None => ret tt
  end ;;
  Span_end (ts_span self).

(** [with TracingSpan(name, attributes) as span: body span].  [__exit__]
    gets the exception the body raised, or [None]; as it returns [None],
    the body's exception is raised again after it; an exception raised by
    [__exit__] itself replaces it. *)
Definition with_TracingSpan {A} (name : string) (attributes : option Attributes)
    (body : SpanRef -> M A) : M A :=
  fun w =>
    match TracingSpan_enter (TracingSpan_init name attributes) w with
    | (Raised e, w1) => (Raised e, w1)
    | (Returned (self, span), w1) =>
        match body span w1 with
        | (Returned v, w2) =>
            match TracingSpan_exit self None w2 with
            | (Returned _, w3) => (Returned v, w3)
            | (Raised e', w3) => (Raised e', w3)
            end
        | (Raised e, w2) =>
            match TracingSpan_exit self (Some e) w2 with
            | (Returned _, w3) => (Raised e, w3)
            | (Raised e', w3) => (Raised e', w3)
            end
        end
    end.

End Tracing.

(** ** The bootstrap as a list of steps *)

(** The value [os.getenv("ENVIRONMENT", "development")] has in a world. *)
Definition deployment_environment (w : World) : string :=
  match environ w !! "ENVIRONMENT" with
  | Some value => value
  | None => "development"
  end.

(** What the specification says the deployment environment is:
    the variable's value, or ["development"] if it is unset or empty. *)
Definition spec_deployment_environment (w : World) : string :=
  match environ w !! "ENVIRONMENT" with
  | Some value => if decide (value = "") then "development" else value
  | None => "development"
  end.

Definition the_resource (environment : string) : Resource :=
  {| resource_attributes := resource_dict environment |}.

Definition the_exporter : OTLPSpanExporter :=
  {| endpoint := "http://otel-collector:4317"; insecure := true |}.

(** The steps of the bootstrap as the specification orders them: resource
    descriptor, provider bound to it, installed as the default, exporter,
    batching processor attached to the provider, the five activations. *)
Definition setup_steps (environment : string) : list Call :=
  [ CallResourceCreate (resource_attributes (the_resource environment));
    CallTracerProvider (the_resource environment);
    CallSetTracerProvider
      {| resource := the_resource environment; span_processors := [] |};
    CallOTLPSpanExporter "http://otel-collector:4317" true;
    CallBatchSpanProcessor the_exporter;
    CallGetTracerProvider;
    CallAddSpanProcessor (BatchSpanProcessor the_exporter);
    CallInstrument FastAPIInstrumentation;
    CallInstrument RedisInstrumentation;
    CallInstrument SQLAlchemyInstrumentation;
    CallInstrument ElasticsearchInstrumentation;
    CallInstrument RequestsInstrumentation ].

(** The state after a list of calls that all returned. *)
Definition after_calls (cs : list Call) (w : World) : World :=
  foldl (fun w c => sdk_effect c (log_call c w)) w cs.

(** A span after [set_attribute] for each pair of a list, in order. *)
Definition set_all (l : list (string * AttrValue)) (sp : Span) : Span :=
  foldl (fun sp kv => span_set kv.1 kv.2 sp) sp l.

Definition set_attribute_calls (s : SpanRef) (l : list (string * AttrValue))
  : list Call :=
  (fun kv => CallSetAttribute s kv.1 kv.2) <$> l.

(** The activations among a list of calls, in order. *)
Definition activations (cs : list Call) : list Instrumentation :=
  omap (fun c => match c with CallInstrument i => Some i | _ => None end) cs.

(** ** Concrete scenarios *)

(** An SDK in which no call raises. *)
Definition no_faults : Call -> option PyException := fun _ => None.

(** A fresh process: no variable set, no provider, no span. *)
Definition fresh : World :=
  {| environ := ∅; tracer_provider := None; instrumented := [];
     spans := []; sdk_calls := [] |}.

Definition with_environ (env : gmap string string) (w : World) : World :=
  {| environ := env; tracer_provider := tracer_provider w;
     instrumented := instrumented w; spans := spans w;
     sdk_calls := sdk_calls w |}.

(** [ValueError("bad input")] *)
Definition ValueError_bad_input : PyException :=
  {| exc_type := "ValueError"; exc_message := "bad input"; exc_bool := true |}.

(** An instance of a user-defined exception class whose [__len__] returns 0,
    such as [class EmptyResult(Exception): __len__ = lambda self: 0]. *)
Definition EmptyResult : PyException :=
  {| exc_type := "EmptyResult"; exc_message := ""; exc_bool := false |}.

(** What a failing SDK call raises in the scenarios. *)
Definition RuntimeError_sdk : PyException :=
  {| exc_type := "RuntimeError"; exc_message := "sdk failure"; exc_bool := true |}.

(** An SDK in which recording an exception on a span raises. *)
Definition record_fails : Call -> option PyException :=
  fun c =>
    match c with
    | CallRecordException _ _ _ => Some RuntimeError_sdk
    | _ => None
    end.

(** An SDK in which activating the Redis instrumentation raises. *)
Definition redis_fails : Call -> option PyException :=
  fun c =>
    match c with
    | CallInstrument RedisInstrumentation => Some RuntimeError_sdk
    | _ => None
    end.

(** An SDK in which obtaining the tracer raises. *)
Definition get_tracer_fails : Call -> option PyException :=
  fun c =>
    match c with
    | CallGetTracer _ => Some RuntimeError_sdk
    | _ => None
    end.

(** An SDK in which ending a span raises. *)
Definition end_fails : Call -> option PyException :=
  fun c =>
    match c with
    | CallEnd _ => Some RuntimeError_sdk
    | _ => None
    end.

(** An SDK in which setting an attribute raises. *)
Definition set_attribute_fails : Call -> option PyException :=
  fun c =>
    match c with
    | CallSetAttribute _ _ _ => Some RuntimeError_sdk
    | _ => None
    end.

Definition checkout_attributes : Attributes := {["user_id" := AStr "42"]}.

(** The manager of [with TracingSpan("checkout", {"user_id": "42"})] once
    entered in a fresh process, and the process then. *)
Definition checkout_manager : TracingSpan :=
  {| ts_name := "checkout"; ts_attributes := checkout_attributes;
     ts_span := Some 0 |}.

Definition checkout_entered : World :=
  {| environ := ∅; tracer_provider := None; instrumented := [];
     spans := [new_span "checkout" checkout_attributes];
     sdk_calls :=
       [CallGetTracer __name__; CallStartSpan "checkout" checkout_attributes] |}.

(** A process with another span before the checkout span, and the manager
    of the checkout span in it. *)
Definition two_spans : World :=
  with_spans [new_span "request" ∅; new_span "checkout" checkout_attributes]
    fresh.

Definition second_manager : TracingSpan :=
  {| ts_name := "checkout"; ts_attributes := checkout_attributes;
     ts_span := Some 1 |}.

(** A process started with [ENVIRONMENT] set to the empty string. *)
Definition empty_ENVIRONMENT : World :=
  with_environ {["ENVIRONMENT" := ""]} fresh.

(** A process started with [ENVIRONMENT=production]. *)
Definition production : World :=
  with_environ {["ENVIRONMENT" := "production"]} fresh.

(** The resource attribute under a key of the installed provider, if any. *)
Definition installed_resource_attribute (key : string) (w : World)
  : option string :=
  p ← tracer_provider w; resource_attributes (resource p) !! key.

(** * Properties *)

Section Properties.

Variable faults : Call -> option PyException.

(** ** The SDK calls *)

Lemma sdk_call_returns c w :
  faults c = None ->
  sdk_call faults c w = (Returned tt, sdk_effect c (log_call c w)).
Proof. intros H. unfold sdk_call. by rewrite H. Qed.

Lemma sdk_call_raises c e w :
  faults c = Some e ->
  sdk_call faults c w = (Raised e, log_call c w).
Proof. intros H. unfold sdk_call. by rewrite H. Qed.

Lemma sdk_calls_effect c w : sdk_calls (sdk_effect c w) = sdk_calls w.
Proof. by destruct c. Qed.

Lemma sdk_calls_after cs w :
  sdk_calls (after_calls cs w) = sdk_calls w ++ cs.
Proof.
  revert w. induction cs as [|c cs IH]; intros w; simpl.
  - by rewrite app_nil_r.
  - rewrite IH, sdk_calls_effect. simpl. by rewrite <- app_assoc.
Qed.

(** A run of calls that all return is the fold of their effects. *)
Lemma run_calls_return cs w :
  Forall (fun c => faults c = None) cs ->
  for_each cs (sdk_call faults) w = (Returned tt, after_calls cs w).
Proof.
  intros H. revert w. induction H as [|c cs Hc _ IH]; intros w; simpl.
  - done.
  - unfold bind. rewrite (sdk_call_returns _ _ Hc). apply IH.
Qed.

(** A run stops at the first call that raises, and raises the same. *)
Lemma run_calls_raise pre c post e w :
  Forall (fun c => faults c = None) pre ->
  faults c = Some e ->
  for_each (pre ++ c :: post) (sdk_call faults) w
  = (Raised e, log_call c (after_calls pre w)).
Proof.
  intros H Hc. revert w. induction H as [|c' pre Hc' _ IH]; intros w; simpl.
  - unfold bind. by rewrite (sdk_call_raises _ _ _ Hc).
  - unfold bind. rewrite (sdk_call_returns _ _ Hc'). apply IH.
Qed.

(** [setup_tracing] runs the steps of [setup_steps], in that order. *)
Lemma setup_tracing_run w :
  setup_tracing faults w
  = for_each (setup_steps (deployment_environment w)) (sdk_call faults) w.
Proof.
  unfold setup_tracing, deployment_environment, os_getenv, bind at 1.
  destruct (environ w !! "ENVIRONMENT") as [value|];
    unfold setup_steps, for_each, Resource_create, TracerProvider_init,
      trace_set_tracer_provider, OTLPSpanExporter_init,
      BatchSpanProcessor_init, trace_get_tracer_provider,
      add_span_processor, instrument, the_resource,
      the_exporter, bind, ret, sdk_call; simpl;
    repeat (match goal with |- context [faults ?c] => destruct (faults c) end;
            try reflexivity).
Qed.

(** A run that returns met no raising call. *)
Lemma run_calls_returned cs w r w' :
  for_each cs (sdk_call faults) w = (Returned r, w') ->
  Forall (fun c => faults c = None) cs /\ w' = after_calls cs w.
Proof.
  revert w. induction cs as [|c cs IH]; intros w; simpl.
  - intros [= _ <-]. by split.
  - unfold bind, sdk_call. destruct (faults c) eqn:Hc; [done|].
    intros H. destruct (IH _ H) as [Hcs ->].
    split; [by constructor|done].
Qed.

(** Whatever happens, a run only appends to the log. *)
Lemma run_calls_log cs w :
  exists rest, sdk_calls (for_each cs (sdk_call faults) w).2 = sdk_calls w ++ rest.
Proof.
  revert w. induction cs as [|c cs IH]; intros w; simpl.
  - exists []. by rewrite app_nil_r.
  - unfold bind. destruct (faults c) as [e|] eqn:Hc;
      [rewrite (sdk_call_raises _ _ _ Hc)|rewrite (sdk_call_returns _ _ Hc)].
    + by exists [c].
    + destruct (IH (sdk_effect c (log_call c w))) as [rest Hrest].
      exists (c :: rest). rewrite Hrest, sdk_calls_effect. simpl.
      by rewrite <- app_assoc.
Qed.

(** The first call of a run is made, whatever it and the others do. *)
Lemma run_calls_log_first c cs w :
  exists rest,
    sdk_calls (for_each (c :: cs) (sdk_call faults) w).2
    = sdk_calls w ++ c :: rest.
Proof.
  simpl. unfold bind. destruct (faults c) as [e|] eqn:Hc;
    [rewrite (sdk_call_raises _ _ _ Hc)|rewrite (sdk_call_returns _ _ Hc)].
  - by exists [].
  - destruct (run_calls_log cs (sdk_effect c (log_call c w))) as [rest Hrest].
    exists rest. rewrite Hrest, sdk_calls_effect. simpl.
    by rewrite <- app_assoc.
Qed.

(** ** The bootstrap *)

(** C2 (amended).  The resource descriptor built by [setup_tracing] maps
    [service.name] to ["tiktok-toe-api"], [service.version] to ["1.0.0"]
    and [deployment.environment] to the value of [ENVIRONMENT] whenever
    the variable is set (the empty string included), and to
    ["development"] when it is unset.  That mapping is what is handed to
    [Resource.create], first of all calls, and it is the resource of the
    provider installed when the bootstrap returns. *)
Theorem setup_tracing_resource w :
  let built := resource_dict (deployment_environment w) in
  built !! "service.name" = Some "tiktok-toe-api" /\
  built !! "service.version" = Some "1.0.0" /\
  built !! "deployment.environment"
    = Some (match environ w !! "ENVIRONMENT" with
            | Some value => value
            | None => "development"
            end) /\
  (exists rest,
     sdk_calls (setup_tracing faults w).2
     = sdk_calls w ++ CallResourceCreate built :: rest) /\
  (forall w',
     setup_tracing faults w = (Returned tt, w') ->
     resource <$> tracer_provider w' = Some {| resource_attributes := built |}).
Proof.
  cbv zeta. split; [|split; [|split; [|split]]].
  - unfold resource_dict. rewrite !lookup_insert_ne by done.
    apply lookup_insert_eq.
  - unfold resource_dict. rewrite lookup_insert_ne by done.
    apply lookup_insert_eq.
  - unfold resource_dict. by rewrite lookup_insert_eq.
  - rewrite setup_tracing_run. apply run_calls_log_first.
  - intros w' H. rewrite setup_tracing_run in H.
    apply run_calls_returned in H as [_ ->]. reflexivity.
Qed.

(** C6.  [setup_tracing] performs its steps in the order of
    [setup_steps]: resource descriptor, provider bound to it, installed as
    the process-wide default, exporter with the fixed endpoint
    [http://otel-collector:4317] and plaintext transport, batching
    processor around that exporter attached to the provider, then the five
    activations.  When every step returns, all of them ran, and the
    provider, its processor and the activations are in place; when a step
    raises, the steps before it ran, none after it did, and what it raised
    reaches the caller. *)
Theorem setup_tracing_steps w :
  let steps := setup_steps (deployment_environment w) in
  (Forall (fun c => faults c = None) steps ->
   exists w',
     setup_tracing faults w = (Returned tt, w') /\
     sdk_calls w' = sdk_calls w ++ steps /\
     tracer_provider w'
       = Some {| resource := the_resource (deployment_environment w);
                 span_processors :=
                   [BatchSpanProcessor
                      {| endpoint := "http://otel-collector:4317";
                         insecure := true |}] |} /\
     instrumented w'
       = instrumented w ++
           [FastAPIInstrumentation; RedisInstrumentation;
            SQLAlchemyInstrumentation; ElasticsearchInstrumentation;
            RequestsInstrumentation] /\
     spans w' = spans w) /\
  (forall pre c post e,
     steps = pre ++ c :: post ->
     Forall (fun c => faults c = None) pre ->
     faults c = Some e ->
     exists w',
       setup_tracing faults w = (Raised e, w') /\
       w' = log_call c (after_calls pre w) /\
       sdk_calls w' = sdk_calls w ++ pre ++ [c]).
Proof.
  simpl. split.
  - intros Hok. eexists. split.
    { rewrite setup_tracing_run. by apply run_calls_return. }
    split; [apply sdk_calls_after|].
    unfold after_calls, setup_steps. simpl.
    repeat split. by rewrite <- !app_assoc.
  - intros pre c post e Hsteps Hpre Hc. eexists. split.
    { rewrite setup_tracing_run, Hsteps. by apply run_calls_raise. }
    split; [done|]. simpl. rewrite sdk_calls_after. by rewrite app_assoc.
Qed.

(** ** Spans *)

Lemma set_all_name l sp : span_name (set_all l sp) = span_name sp.
Proof.
  revert sp. induction l as [|[k v] l IH]; intros sp; [done|].
  exact (IH (span_set k v sp)).
Qed.

Lemma set_all_events l sp : span_events (set_all l sp) = span_events sp.
Proof.
  revert sp. induction l as [|[k v] l IH]; intros sp; [done|].
  exact (IH (span_set k v sp)).
Qed.

(** Setting the pairs of a list with distinct keys: a key of the list gets
    the list's value, any other key keeps its own. *)
Lemma set_all_lookup l sp k :
  NoDup l.*1 ->
  span_attributes (set_all l sp) !! k
  = match (list_to_map l : Attributes) !! k with
    | Some v => Some v
    | None => span_attributes sp !! k
    end.
Proof.
  intros Hl. revert sp. induction l as [|[k0 v0] l IH]; intros sp.
  - by rewrite list_to_map_nil, lookup_empty.
  - apply NoDup_cons in Hl as [Hk0 Hl].
    change (set_all ((k0, v0) :: l) sp) with (set_all l (span_set k0 v0 sp)).
    rewrite (IH Hl), list_to_map_cons. simpl.
    destruct (decide (k0 = k)) as [->|Hne].
    + rewrite !lookup_insert_eq.
      by rewrite (not_elem_of_list_to_map_1 (M := gmap string) l k Hk0).
    + by rewrite !lookup_insert_ne.
Qed.

Lemma set_all_attributes (A : Attributes) sp :
  span_attributes (set_all (map_to_list A) sp) = A ∪ span_attributes sp.
Proof.
  apply map_eq. intros k.
  rewrite set_all_lookup by apply NoDup_fst_map_to_list.
  rewrite list_to_map_to_list, lookup_union.
  by destruct (A !! k), (span_attributes sp !! k).
Qed.

Lemma spans_after_set_attributes s l w :
  spans (after_calls (set_attribute_calls s l) w) = alter (set_all l) s (spans w).
Proof.
  revert w. induction l as [|[k v] l IH]; intros w.
  - simpl. symmetry. by apply list_alter_id.
  - change (after_calls (set_attribute_calls s ((k, v) :: l)) w)
      with (after_calls (set_attribute_calls s l)
              (sdk_effect (CallSetAttribute s k v)
                 (log_call (CallSetAttribute s k v) w))).
    rewrite IH. simpl. by rewrite list_alter_alter_eq.
Qed.

(** The loop of [add_span_attributes] is a run of [set_attribute] calls. *)
Lemma set_attributes_run s l w :
  for_each l (fun '(key, value) => Span_set_attribute faults (Some s) key value) w
  = for_each (set_attribute_calls s l) (sdk_call faults) w.
Proof.
  revert w. induction l as [|[k v] l IH]; intros w; [done|].
  change (for_each (set_attribute_calls s ((k, v) :: l)) (sdk_call faults) w)
    with (bind (sdk_call faults (CallSetAttribute s k v))
            (fun _ => for_each (set_attribute_calls s l) (sdk_call faults)) w).
  change (bind (sdk_call faults (CallSetAttribute s k v))
            (fun _ => for_each l
               (fun '(key, value) => Span_set_attribute faults (Some s) key value)) w
          = bind (sdk_call faults (CallSetAttribute s k v))
              (fun _ => for_each (set_attribute_calls s l) (sdk_call faults)) w).
  unfold bind.
  destruct (sdk_call faults (CallSetAttribute s k v) w) as [[[]|e] w']; [|done].
  apply IH.
Qed.

Lemma end_count_add_end sp :
  end_count (span_add_event EndEvent sp) = S (end_count sp).
Proof.
  unfold end_count. simpl. rewrite filter_app, length_app. simpl. lia.
Qed.

Lemma end_count_add_exception e a sp :
  end_count (span_add_event (ExceptionEvent e a) sp) = end_count sp.
Proof.
  unfold end_count. simpl. rewrite filter_app, length_app. simpl. lia.
Qed.

Lemma recorded_exceptions_app evs evs' :
  recorded_exceptions (evs ++ evs')
  = recorded_exceptions evs ++ recorded_exceptions evs'.
Proof.
  induction evs as [|[e a|] evs IH]; simpl; [done| |done]. by rewrite IH.
Qed.

(** ** The manual span helpers *)

(** C7.  For every name, [create_custom_span] obtains the tracer for this
    module from the process-wide API, then starts a span and returns it:
    a new span object with that name and the supplied attribute mapping,
    the empty mapping when none is supplied (when the two SDK calls
    return). *)
Theorem create_custom_span_starts name attributes w :
  faults (CallGetTracer __name__) = None ->
  faults (CallStartSpan name (default ∅ attributes)) = None ->
  exists w',
    create_custom_span faults name attributes w
    = (Returned (length (spans w)), w') /\
    sdk_calls w'
    = sdk_calls w ++
        [CallGetTracer __name__; CallStartSpan name (default ∅ attributes)] /\
    spans w' = spans w ++ [new_span name (default ∅ attributes)] /\
    spans w !! length (spans w) = None /\
    spans w' !! length (spans w) = Some (new_span name (default ∅ attributes)) /\
    tracer_provider w' = tracer_provider w.
Proof.
  intros Hget Hstart. eexists. split.
  - unfold create_custom_span, trace_get_tracer, Tracer_start_span, bind, ret.
    rewrite (sdk_call_returns _ _ Hget).
    replace (match attributes with Some d => d | None => ∅ end)
      with (default ∅ attributes) by by destruct attributes.
    rewrite (sdk_call_returns _ _ Hstart). reflexivity.
  - simpl. split; [by rewrite <- app_assoc|]. split; [done|].
    split; [by apply lookup_ge_None_2|]. split; [|done].
    by rewrite lookup_app_r, Nat.sub_diag.
Qed.

(** C4.  An empty mapping changes nothing.  For every span and every
    mapping [A], after [add_span_attributes] every key of [A] is on the
    span with the value [A] gives it, whatever the span had under that key
    before (the last write wins); the other attributes, the name and the
    history of the span, and the other spans, are as they were (when the
    SDK's [set_attribute] calls return). *)
Theorem add_span_attributes_sets :
  (forall span w,
     add_span_attributes faults span (Some ∅) w = (Returned tt, w)) /\
  (forall span (A : Attributes) w sp,
     spans w !! span = Some sp ->
     (forall k v, A !! k = Some v -> faults (CallSetAttribute span k v) = None) ->
     exists w' sp',
       add_span_attributes faults (Some span) (Some A) w = (Returned tt, w') /\
       spans w' !! span = Some sp' /\
       (forall k v, A !! k = Some v -> span_attributes sp' !! k = Some v) /\
       (forall k, A !! k = None ->
                  span_attributes sp' !! k = span_attributes sp !! k) /\
       span_attributes sp' = A ∪ span_attributes sp /\
       span_name sp' = span_name sp /\
       span_events sp' = span_events sp /\
       (forall j, j ≠ span -> spans w' !! j = spans w !! j)).
Proof.
  split.
  - intros span w. unfold add_span_attributes. by rewrite map_to_list_empty.
  - intros span A w sp Hsp Hok.
    exists (after_calls (set_attribute_calls span (map_to_list A)) w),
           (set_all (map_to_list A) sp).
    split.
    { unfold add_span_attributes. rewrite set_attributes_run.
      apply run_calls_return. unfold set_attribute_calls.
      apply Forall_fmap, Forall_forall. intros [k v] Hkv. simpl.
      by apply Hok, elem_of_map_to_list. }
    rewrite spans_after_set_attributes, set_all_attributes.
    split; [by rewrite list_lookup_alter_eq, Hsp|].
    split.
    { intros k v Hkv. by apply lookup_union_Some_l. }
    split; [intros k Hk; by apply lookup_union_r|].
    split; [done|]. split; [apply set_all_name|]. split; [apply set_all_events|].
    intros j Hj. by apply list_lookup_alter_ne.
Qed.

(** C5.  For every span and exception, [record_exception] records the
    exception on the span as an event carrying the supplied attribute
    mapping, the empty mapping when none is supplied; the span is not
    ended by it (its count of [end()] calls and its open/closed state are
    as before), the other spans are untouched, and the call returns: the
    exception is not raised again (when the SDK's [record_exception]
    returns). *)
Theorem record_exception_records span e attributes w sp :
  spans w !! span = Some sp ->
  faults (CallRecordException span e (default ∅ attributes)) = None ->
  exists w' sp',
    record_exception faults (Some span) e attributes w = (Returned tt, w') /\
    spans w' !! span = Some sp' /\
    span_events sp'
    = span_events sp ++ [ExceptionEvent e (default ∅ attributes)] /\
    recorded_exceptions (span_events sp')
    = recorded_exceptions (span_events sp) ++ [(e, default ∅ attributes)] /\
    end_count sp' = end_count sp /\
    is_ended sp' = is_ended sp /\
    span_attributes sp' = span_attributes sp /\
    (forall j, j ≠ span -> spans w' !! j = spans w !! j).
Proof.
  intros Hsp Hok.
  eexists _, (span_add_event (ExceptionEvent e (default ∅ attributes)) sp).
  split.
  { unfold record_exception, Span_record_exception, invoke.
    replace (match attributes with Some d => d | None => ∅ end)
      with (default ∅ attributes) by by destruct attributes.
    apply (sdk_call_returns _ _ Hok). }
  simpl. split; [by rewrite list_lookup_alter_eq, Hsp|]. split; [done|].
  split; [by rewrite recorded_exceptions_app|].
  split; [apply end_count_add_exception|].
  split; [unfold is_ended; by rewrite end_count_add_exception|].
  split; [done|]. intros j Hj. by apply list_lookup_alter_ne.
Qed.

(** C8.  [create_custom_span] and [record_exception] treat [None] as the
    empty mapping; [add_span_attributes] does not: with [None] for its
    attributes it raises, for every span, and touches nothing, where with
    the empty mapping it returns. *)
Theorem add_span_attributes_None span w :
  add_span_attributes faults span None w
  = (Raised (AttributeError "items"), w) /\
  add_span_attributes faults span (Some ∅) w = (Returned tt, w) /\
  (forall name,
     create_custom_span faults name None w
     = create_custom_span faults name (Some ∅) w) /\
  (forall e,
     record_exception faults span e None w
     = record_exception faults span e (Some ∅) w).
Proof.
  split; [done|]. split; [|by split].
  unfold add_span_attributes. by rewrite map_to_list_empty.
Qed.

(** ** The context manager *)

(** What a scope entry that returns has done: the span it returns is the
    one stored in the manager, a new object with no history. *)
Lemma TracingSpan_enter_returned name attributes w self span w1 :
  TracingSpan_enter faults (TracingSpan_init name attributes) w
  = (Returned (self, span), w1) ->
  ts_span self = Some span /\
  span = length (spans w) /\
  spans w1 = spans w ++ [new_span name (ts_attributes self)].
Proof.
  unfold TracingSpan_enter, create_custom_span, trace_get_tracer,
    Tracer_start_span, bind, ret, sdk_call.
  destruct (faults (CallGetTracer __name__)); [done|].
  destruct (faults (CallStartSpan _ _)); [done|].
  simpl. by intros [= <- <- <-].
Qed.

(** [__exit__] looks at the truth value of [exc_val] only: when it is false,
    for [None] as for an instance that converts to false, the span is ended
    and nothing else is done. *)
Lemma TracingSpan_exit_not_truthy self exc_val w :
  truthy exc_val = false ->
  TracingSpan_exit faults self exc_val w = Span_end faults (ts_span self) w.
Proof.
  intros H. unfold TracingSpan_exit. destruct exc_val as [e|]; [|done].
  simpl in H. by rewrite H.
Qed.

(** [__exit__] without an exception only ends the span. *)
Lemma TracingSpan_exit_None self w :
  TracingSpan_exit faults self None w = Span_end faults (ts_span self) w.
Proof. done. Qed.

Lemma Span_end_returns span w :
  faults (CallEnd span) = None ->
  Span_end faults (Some span) w
  = (Returned tt, sdk_effect (CallEnd span) (log_call (CallEnd span) w)).
Proof. apply sdk_call_returns. Qed.

(** The faulting exit as it is meant to go: an exception whose truth value
    is true is recorded with no attributes, then the span is ended, and
    [__exit__] returns, so that the exception goes on to the caller. *)
Lemma TracingSpan_exit_records self span e w :
  ts_span self = Some span ->
  exc_bool e = true ->
  faults (CallRecordException span e ∅) = None ->
  faults (CallEnd span) = None ->
  TracingSpan_exit faults self (Some e) w
  = (Returned tt,
     after_calls [CallRecordException span e ∅; CallEnd span] w).
Proof.
  intros Hspan He Hrec Hend.
  unfold TracingSpan_exit, record_exception, Span_record_exception, Span_end,
    invoke, bind.
  rewrite He, Hspan, (sdk_call_returns _ _ Hrec).
  apply (sdk_call_returns _ _ Hend).
Qed.

(** C3.  For every use of [TracingSpan] whose body returns, the helper
    calls [end()] on the span created on entry once, and records nothing
    on it: the span's history is what the body left, followed by one end;
    for a body that left the new span alone, the span ends up ended
    exactly once with no exception recorded.  The body's value is the
    value of the scope (when the SDK's [end()] returns). *)
Theorem scope_normal_exit {A} name attributes (body : SpanRef -> M A)
    w self span w1 v w2 :
  TracingSpan_enter faults (TracingSpan_init name attributes) w
  = (Returned (self, span), w1) ->
  body span w1 = (Returned v, w2) ->
  faults (CallEnd span) = None ->
  exists w3,
    with_TracingSpan faults name attributes body w = (Returned v, w3) /\
    sdk_calls w3 = sdk_calls w2 ++ [CallEnd span] /\
    spans w3 = alter (span_add_event EndEvent) span (spans w2) /\
    (forall sp2, spans w2 !! span = Some sp2 ->
       exists sp3,
         spans w3 !! span = Some sp3 /\
         span_events sp3 = span_events sp2 ++ [EndEvent] /\
         end_count sp3 = S (end_count sp2) /\
         recorded_exceptions (span_events sp3)
         = recorded_exceptions (span_events sp2)) /\
    (spans w2 !! span = spans w1 !! span ->
       exists sp3,
         spans w3 !! span = Some sp3 /\
         span_events sp3 = [EndEvent] /\
         end_count sp3 = 1 /\
         recorded_exceptions (span_events sp3) = []).
Proof.
  intros Henter Hbody Hend.
  destruct (TracingSpan_enter_returned _ _ _ _ _ _ Henter) as (Hself & -> & Hw1).
  exists (sdk_effect (CallEnd (length (spans w)))
            (log_call (CallEnd (length (spans w))) w2)).
  split.
  { unfold with_TracingSpan. rewrite Henter, Hbody, TracingSpan_exit_None, Hself.
    by rewrite (Span_end_returns _ _ Hend). }
  simpl. split; [done|]. split; [done|]. split.
  - intros sp2 Hsp2. exists (span_add_event EndEvent sp2).
    rewrite list_lookup_alter_eq, Hsp2. split; [done|]. split; [done|].
    split; [apply end_count_add_end|].
    simpl. rewrite recorded_exceptions_app. simpl. by rewrite app_nil_r.
  - intros Hkept.
    exists (span_add_event EndEvent (new_span name (ts_attributes self))).
    rewrite list_lookup_alter_eq, Hkept, Hw1.
    by rewrite lookup_app_r, Nat.sub_diag.
Qed.

(** C9.  On the faulting exit nothing guards the call that ends the span
    against [record_exception] raising: for any span on which recording
    the exception raises, [__exit__] raises that second exception, the
    span is as it was (never ended, nothing recorded), and [end()] has not
    even been called; so a scope whose body raised [e] lets the second
    exception out in place of [e], with the span left open. *)
Theorem exit_record_raises_skips_end self span e e' w :
  ts_span self = Some span ->
  exc_bool e = true ->
  faults (CallRecordException span e ∅) = Some e' ->
  exists w',
    TracingSpan_exit faults self (Some e) w = (Raised e', w') /\
    sdk_calls w' = sdk_calls w ++ [CallRecordException span e ∅] /\
    spans w' = spans w /\
    (forall A name attributes (body : SpanRef -> M A) w0 w1,
       TracingSpan_enter faults (TracingSpan_init name attributes) w0
       = (Returned (self, span), w1) ->
       body span w1 = (Raised e, w) ->
       with_TracingSpan faults name attributes body w0 = (Raised e', w')).
Proof.
  intros Hspan He Hrec.
  assert (TracingSpan_exit faults self (Some e) w
          = (Raised e', log_call (CallRecordException span e ∅) w)) as Hexit.
  { unfold TracingSpan_exit, record_exception, Span_record_exception,
      invoke, bind.
    by rewrite He, Hspan, (sdk_call_raises _ _ _ Hrec). }
  eexists. split; [exact Hexit|]. split; [done|]. split; [done|].
  intros A name attributes body w0 w1 Henter Hbody.
  unfold with_TracingSpan. by rewrite Henter, Hbody, Hexit.
Qed.

(** C10.  [__exit__] decides by the truth value of the exception, not by
    its presence: for an exception instance whose truth value is false it
    does exactly what it does when there is no exception, so the scope
    exits with the span ended and no exception recorded, even though the
    body raised (and its exception still reaches the caller). *)
Theorem exit_falsy_exception_not_recorded self e w :
  exc_bool e = false ->
  TracingSpan_exit faults self (Some e) w = TracingSpan_exit faults self None w /\
  (forall span,
     ts_span self = Some span ->
     faults (CallEnd span) = None ->
     exists w',
       TracingSpan_exit faults self (Some e) w = (Returned tt, w') /\
       sdk_calls w' = sdk_calls w ++ [CallEnd span] /\
       spans w' = alter (span_add_event EndEvent) span (spans w) /\
       (forall A name attributes (body : SpanRef -> M A) w0 w1,
          TracingSpan_enter faults (TracingSpan_init name attributes) w0
          = (Returned (self, span), w1) ->
          body span w1 = (Raised e, w) ->
          with_TracingSpan faults name attributes body w0 = (Raised e, w'))).
Proof.
  intros He.
  assert (TracingSpan_exit faults self (Some e) w
          = TracingSpan_exit faults self None w) as Hsame.
  { unfold TracingSpan_exit. by rewrite He. }
  split; [exact Hsame|].
  intros span Hspan Hend.
  assert (TracingSpan_exit faults self (Some e) w
          = (Returned tt, sdk_effect (CallEnd span) (log_call (CallEnd span) w)))
    as Hexit.
  { rewrite Hsame, TracingSpan_exit_None, Hspan. by apply Span_end_returns. }
  eexists. split; [exact Hexit|]. split; [done|]. split; [done|].
  intros A name attributes body w0 w1 Henter Hbody.
  unfold with_TracingSpan. by rewrite Henter, Hbody, Hexit.
Qed.

(** X1.  A scope whose body raises an exception with a true truth value, on an
    SDK whose calls return: the exception is recorded, then the span is
    ended, and the exception reaches the caller. *)
Lemma scope_faulting_exit {A} name attributes (body : SpanRef -> M A)
    w self span w1 e w2 :
  TracingSpan_enter faults (TracingSpan_init name attributes) w
  = (Returned (self, span), w1) ->
  body span w1 = (Raised e, w2) ->
  exc_bool e = true ->
  faults (CallRecordException span e ∅) = None ->
  faults (CallEnd span) = None ->
  exists w3,
    with_TracingSpan faults name attributes body w = (Raised e, w3) /\
    sdk_calls w3 = sdk_calls w2 ++ [CallRecordException span e ∅; CallEnd span] /\
    (forall sp2, spans w2 !! span = Some sp2 ->
       exists sp3,
         spans w3 !! span = Some sp3 /\
         span_events sp3 = span_events sp2 ++ [ExceptionEvent e ∅; EndEvent]).
Proof.
  intros Henter Hbody He Hrec Hend.
  destruct (TracingSpan_enter_returned _ _ _ _ _ _ Henter) as (Hself & _ & _).
  eexists. split.
  { unfold with_TracingSpan. rewrite Henter, Hbody.
    by rewrite (TracingSpan_exit_records _ _ _ _ Hself He Hrec Hend). }
  split; [by rewrite sdk_calls_after|].
  intros sp2 Hsp2. simpl. rewrite list_alter_alter_eq, list_lookup_alter_eq, Hsp2.
  eexists. split; [done|]. simpl. by rewrite <- app_assoc.
Qed.

(** ** More on the context manager *)

Lemma TracingSpan_init_attributes name attributes :
  ts_attributes (TracingSpan_init name attributes) = default ∅ attributes.
Proof.
  destruct attributes as [d|]; [|done]. simpl. by case_decide; subst.
Qed.

(** What any scope entry that returns has done, whatever manager it is
    called on. *)
Lemma TracingSpan_enter_inv self w self' span w1 :
  TracingSpan_enter faults self w = (Returned (self', span), w1) ->
  self' = {| ts_name := ts_name self; ts_attributes := ts_attributes self;
             ts_span := Some span |} /\
  span = length (spans w) /\
  w1 = after_calls
         [CallGetTracer __name__;
          CallStartSpan (ts_name self) (ts_attributes self)] w.
Proof.
  unfold TracingSpan_enter, create_custom_span, trace_get_tracer,
    Tracer_start_span, bind, ret, sdk_call.
  destruct (faults (CallGetTracer __name__)); [done|].
  destruct (faults (CallStartSpan _ _)); [done|].
  simpl. by intros [= <- <- <-].
Qed.

Lemma TracingSpan_enter_returns self w :
  faults (CallGetTracer __name__) = None ->
  faults (CallStartSpan (ts_name self) (ts_attributes self)) = None ->
  TracingSpan_enter faults self w
  = (Returned ({| ts_name := ts_name self; ts_attributes := ts_attributes self;
                  ts_span := Some (length (spans w)) |}, length (spans w)),
     after_calls
       [CallGetTracer __name__;
        CallStartSpan (ts_name self) (ts_attributes self)] w).
Proof.
  intros Hget Hstart.
  unfold TracingSpan_enter, create_custom_span, trace_get_tracer,
    Tracer_start_span, bind, ret.
  rewrite (sdk_call_returns _ _ Hget), (sdk_call_returns _ _ Hstart).
  reflexivity.
Qed.

(** X7.  Entering a scope built from a name and attributes starts a span with
    that name and those attributes ([None] and the empty mapping both give
    the empty mapping), stores it in the manager and hands the same span to
    the body; the spans that exist are left alone. *)
Theorem TracingSpan_enter_starts name attributes w :
  faults (CallGetTracer __name__) = None ->
  faults (CallStartSpan name (default ∅ attributes)) = None ->
  exists self w1,
    TracingSpan_enter faults (TracingSpan_init name attributes) w
    = (Returned (self, length (spans w)), w1) /\
    ts_span self = Some (length (spans w)) /\
    spans w1 = spans w ++ [new_span name (default ∅ attributes)] /\
    sdk_calls w1
    = sdk_calls w ++
        [CallGetTracer __name__; CallStartSpan name (default ∅ attributes)].
Proof.
  intros Hget Hstart. eexists _, _. split.
  { apply TracingSpan_enter_returns; [done|].
    by rewrite TracingSpan_init_attributes. }
  rewrite TracingSpan_init_attributes.
  split; [done|]. split; [done|]. simpl. by rewrite <- app_assoc.
Qed.


(** X3.  When the span cannot be started, because obtaining the tracer or
    starting the span raises, the scope raises the same, the body is never
    run and no span exists afterwards that did not before. *)
Theorem scope_enter_raises {A} name attributes (body : SpanRef -> M A) w e :
  (faults (CallGetTracer __name__) = Some e ->
   with_TracingSpan faults name attributes body w
   = (Raised e, log_call (CallGetTracer __name__) w)) /\
  (faults (CallGetTracer __name__) = None ->
   faults (CallStartSpan name (default ∅ attributes)) = Some e ->
   with_TracingSpan faults name attributes body w
   = (Raised e,
      log_call (CallStartSpan name (default ∅ attributes))
        (log_call (CallGetTracer __name__) w))).
Proof.
  split.
  - intros Hget.
    unfold with_TracingSpan, TracingSpan_enter, create_custom_span,
      trace_get_tracer, bind.
    by rewrite (sdk_call_raises _ _ _ Hget).
  - intros Hget Hstart.
    unfold with_TracingSpan, TracingSpan_enter, create_custom_span,
      trace_get_tracer, Tracer_start_span, bind, ret.
    rewrite (sdk_call_returns _ _ Hget), TracingSpan_init_attributes.
    change (ts_name (TracingSpan_init name attributes)) with name.
    by rewrite (sdk_call_raises _ _ _ Hstart).
Qed.


(** X4.  Nothing guards against [end()] raising either.  When it does, the scope
    raises what [end()] raised: after a body that returned, the body's value
    is lost; after a body that raised, the body's exception is replaced, even
    though it has been recorded.  The span is left without an end. *)
Theorem end_raises_replaces_outcome {A} name attributes
    (body : SpanRef -> M A) w self span w1 e' :
  TracingSpan_enter faults (TracingSpan_init name attributes) w
  = (Returned (self, span), w1) ->
  faults (CallEnd span) = Some e' ->
  (forall v w2,
     body span w1 = (Returned v, w2) ->
     exists w3,
       with_TracingSpan faults name attributes body w = (Raised e', w3) /\
       spans w3 = spans w2) /\
  (forall e w2,
     body span w1 = (Raised e, w2) ->
     exc_bool e = true ->
     faults (CallRecordException span e ∅) = None ->
     exists w3,
       with_TracingSpan faults name attributes body w = (Raised e', w3) /\
       spans w3
       = alter (span_add_event (ExceptionEvent e ∅)) span (spans w2)).
Proof.
  intros Henter Hend.
  destruct (TracingSpan_enter_inv _ _ _ _ _ Henter) as (Hself & _ & _).
  split.
  - intros v w2 Hbody. eexists. split.
    { unfold with_TracingSpan.
      rewrite Henter, Hbody, TracingSpan_exit_None, Hself. simpl.
      unfold Span_end, invoke. by rewrite (sdk_call_raises _ _ _ Hend). }
    done.
  - intros e w2 Hbody He Hrec. eexists. split.
    { unfold with_TracingSpan. rewrite Henter, Hbody.
      unfold TracingSpan_exit, record_exception, Span_record_exception,
        Span_end, invoke, bind. rewrite Hself, He. simpl.
      by rewrite (sdk_call_returns _ _ Hrec), (sdk_call_raises _ _ _ Hend). }
    done.
Qed.

(** X6.  [__exit__] works on the manager's own span and on nothing else: for
    every exception value and whatever the SDK does, the environment, the
    installed provider, the activations and every other span are as
    before, and no span is created or removed. *)
Theorem exit_touches_own_span_only self exc_val w :
  environ (TracingSpan_exit faults self exc_val w).2 = environ w /\
  tracer_provider (TracingSpan_exit faults self exc_val w).2
  = tracer_provider w /\
  instrumented (TracingSpan_exit faults self exc_val w).2 = instrumented w /\
  length (spans (TracingSpan_exit faults self exc_val w).2)
  = length (spans w) /\
  (forall j, ts_span self ≠ Some j ->
     spans (TracingSpan_exit faults self exc_val w).2 !! j = spans w !! j).
Proof.
  unfold TracingSpan_exit, record_exception, Span_record_exception, Span_end,
    invoke, bind, ret, raise, sdk_call.
  destruct (ts_span self) as [span|], exc_val as [e|];
    try destruct (exc_bool e);
    repeat match goal with
           | |- context [faults ?c] => destruct (faults c)
           end;
    simpl; rewrite ?length_alter;
    (split; [done|]; split; [done|]; split; [done|]; split; [done|]);
    intros j Hj; rewrite ?list_lookup_alter_ne by congruence; done.
Qed.

Lemma alter_last {X} (f : X -> X) (l : list X) (x : X) :
  alter f (length l) (l ++ [x]) = l ++ [f x].
Proof.
  rewrite <- (Nat.add_0_r (length l)). by rewrite alter_app_r.
Qed.

(** X8.  A manager can be used for one scope after another: each entry starts a
    span of its own, and each exit ends the span of its own entry, so that
    both spans end up ended once. *)
Theorem manager_reused_in_sequence self w :
  faults (CallGetTracer __name__) = None ->
  faults (CallStartSpan (ts_name self) (ts_attributes self)) = None ->
  (forall s, faults (CallEnd s) = None) ->
  exists self1 w1 w2 self2 w3 w4,
    TracingSpan_enter faults self w = (Returned (self1, length (spans w)), w1) /\
    TracingSpan_exit faults self1 None w1 = (Returned tt, w2) /\
    TracingSpan_enter faults self1 w2
    = (Returned (self2, S (length (spans w))), w3) /\
    TracingSpan_exit faults self2 None w3 = (Returned tt, w4) /\
    spans w4
    = spans w ++
        [span_add_event EndEvent (new_span (ts_name self) (ts_attributes self));
         span_add_event EndEvent (new_span (ts_name self) (ts_attributes self))].
Proof.
  intros Hget Hstart Hend.
  eexists _, _, _, _, _, _.
  split; [by apply TracingSpan_enter_returns|].
  split.
  { rewrite TracingSpan_exit_None. simpl. by apply Span_end_returns. }
  simpl. rewrite alter_last.
  split.
  { rewrite TracingSpan_enter_returns by done. simpl.
    by rewrite length_app, Nat.add_1_r. }
  split.
  { rewrite TracingSpan_exit_None. simpl. by apply Span_end_returns. }
  simpl.
  replace (S (length (spans w)))
    with (length (spans w ++
                    [span_add_event EndEvent
                       (new_span (ts_name self) (ts_attributes self))]))
    by (rewrite length_app; simpl; lia).
  rewrite alter_last. by rewrite <- app_assoc.
Qed.

(** X9.  A manager entered again before it was exited forgets its first span:
    the second entry overwrites the stored span, both exits then end the
    second span, and the first span is never ended. *)
Theorem manager_reused_nested self w :
  faults (CallGetTracer __name__) = None ->
  faults (CallStartSpan (ts_name self) (ts_attributes self)) = None ->
  (forall s, faults (CallEnd s) = None) ->
  exists self1 w1 self2 w2 w3 w4,
    TracingSpan_enter faults self w = (Returned (self1, length (spans w)), w1) /\
    TracingSpan_enter faults self1 w1
    = (Returned (self2, S (length (spans w))), w2) /\
    TracingSpan_exit faults self2 None w2 = (Returned tt, w3) /\
    TracingSpan_exit faults self2 None w3 = (Returned tt, w4) /\
    spans w4
    = spans w ++
        [new_span (ts_name self) (ts_attributes self);
         span_add_event EndEvent
           (span_add_event EndEvent
              (new_span (ts_name self) (ts_attributes self)))].
Proof.
  intros Hget Hstart Hend.
  eexists _, _, _, _, _, _.
  split; [by apply TracingSpan_enter_returns|].
  split.
  { rewrite TracingSpan_enter_returns by done. simpl.
    by rewrite length_app, Nat.add_1_r. }
  split.
  { rewrite TracingSpan_exit_None. simpl. by apply Span_end_returns. }
  split.
  { rewrite TracingSpan_exit_None. simpl. by apply Span_end_returns. }
  simpl. rewrite list_alter_alter_eq.
  replace (S (length (spans w)))
    with (length (spans w ++ [new_span (ts_name self) (ts_attributes self)]))
    by (rewrite length_app; simpl; lia).
  rewrite alter_last. by rewrite <- app_assoc.
Qed.

(** ** More on the helpers *)

(** A run that raises raises what one of its calls raised. *)
Lemma run_calls_raised cs w e w' :
  for_each cs (sdk_call faults) w = (Raised e, w') ->
  exists c, c ∈ cs /\ faults c = Some e.
Proof.
  revert w. induction cs as [|c cs IH]; intros w; simpl; [done|].
  unfold bind. destruct (faults c) as [e0|] eqn:Hc.
  - rewrite (sdk_call_raises _ _ _ Hc). intros [= <- _].
    exists c. split; [left|done].
  - rewrite (sdk_call_returns _ _ Hc). intros H.
    destruct (IH _ H) as (c' & Hin & Hc'). exists c'. split; [by right|done].
Qed.

(** A run with a call that raises does not return. *)
Lemma run_calls_not_returned cs w c e :
  c ∈ cs -> faults c = Some e ->
  exists e' w', for_each cs (sdk_call faults) w = (Raised e', w').
Proof.
  intros Hin Hc.
  destruct (for_each cs (sdk_call faults) w) as [[[]|e'] w'] eqn:Hrun; [|eauto].
  apply run_calls_returned in Hrun as [Hok _].
  rewrite Forall_forall in Hok. specialize (Hok c Hin). congruence.
Qed.

Lemma add_span_attributes_run span (A : Attributes) w :
  add_span_attributes faults (Some span) (Some A) w
  = for_each (set_attribute_calls span (map_to_list A)) (sdk_call faults) w.
Proof. apply set_attributes_run. Qed.

Lemma elem_of_set_attribute_calls span (A : Attributes) c :
  c ∈ set_attribute_calls span (map_to_list A) <->
  exists k v, A !! k = Some v /\ c = CallSetAttribute span k v.
Proof.
  unfold set_attribute_calls. rewrite list_elem_of_fmap. split.
  - intros ([k v] & -> & Hin). exists k, v. by rewrite <- elem_of_map_to_list.
  - intros (k & v & Hkv & ->). exists (k, v). by rewrite elem_of_map_to_list.
Qed.

(** X12.  [add_span_attributes] catches nothing: it raises exactly when one of the
    [set_attribute] calls for a pair of the mapping raises, and what it
    raises is what such a call raised. *)
Theorem add_span_attributes_raises span (A : Attributes) w :
  (forall e w',
     add_span_attributes faults (Some span) (Some A) w = (Raised e, w') ->
     exists k v, A !! k = Some v /\ faults (CallSetAttribute span k v) = Some e) /\
  (forall k v e,
     A !! k = Some v ->
     faults (CallSetAttribute span k v) = Some e ->
     exists e' w',
       add_span_attributes faults (Some span) (Some A) w = (Raised e', w')).
Proof.
  split.
  - intros e w' Hrun. rewrite add_span_attributes_run in Hrun.
    apply run_calls_raised in Hrun as (c & Hin & Hc).
    apply elem_of_set_attribute_calls in Hin as (k & v & Hkv & ->). eauto.
  - intros k v e Hkv Hc. rewrite add_span_attributes_run.
    apply (run_calls_not_returned _ _ (CallSetAttribute span k v) e); [|done].
    apply elem_of_set_attribute_calls. eauto.
Qed.

Lemma span_eq sp sp' :
  span_name sp = span_name sp' ->
  span_attributes sp = span_attributes sp' ->
  span_events sp = span_events sp' ->
  sp = sp'.
Proof. destruct sp, sp'. simpl. by intros -> -> ->. Qed.

(** X13.  Two calls of [add_span_attributes] in a row: the span has the second
    mapping's value for every key of the second mapping, the first
    mapping's for the keys only the first has, and its earlier value for
    the rest; applying the same mapping twice is the same as applying it
    once. *)
Theorem add_span_attributes_twice span (A B : Attributes) w sp :
  spans w !! span = Some sp ->
  (forall k v, faults (CallSetAttribute span k v) = None) ->
  exists w1 w2 sp1 sp2,
    add_span_attributes faults (Some span) (Some A) w = (Returned tt, w1) /\
    add_span_attributes faults (Some span) (Some B) w1 = (Returned tt, w2) /\
    spans w1 !! span = Some sp1 /\
    spans w2 !! span = Some sp2 /\
    span_attributes sp2 = B ∪ (A ∪ span_attributes sp) /\
    (forall k v, B !! k = Some v -> span_attributes sp2 !! k = Some v) /\
    (forall k v, B !! k = None -> A !! k = Some v ->
                 span_attributes sp2 !! k = Some v) /\
    (forall k, B !! k = None -> A !! k = None ->
               span_attributes sp2 !! k = span_attributes sp !! k) /\
    (B = A -> sp2 = sp1).
Proof.
  intros Hsp Hok.
  assert (forall (C : Attributes) w0,
            add_span_attributes faults (Some span) (Some C) w0
            = (Returned tt,
               after_calls (set_attribute_calls span (map_to_list C)) w0))
    as Hrun.
  { intros C w0. rewrite add_span_attributes_run. apply run_calls_return.
    apply Forall_forall. intros c Hc.
    apply elem_of_set_attribute_calls in Hc as (k & v & _ & ->). apply Hok. }
  exists (after_calls (set_attribute_calls span (map_to_list A)) w),
         (after_calls (set_attribute_calls span (map_to_list B))
            (after_calls (set_attribute_calls span (map_to_list A)) w)),
         (set_all (map_to_list A) sp),
         (set_all (map_to_list B) (set_all (map_to_list A) sp)).
  split; [apply Hrun|]. split; [apply Hrun|].
  rewrite !spans_after_set_attributes, !list_lookup_alter_eq, Hsp.
  split; [done|]. split; [done|].
  rewrite !set_all_attributes.
  split; [done|].
  split; [intros k v Hk; by apply lookup_union_Some_l|].
  split.
  { intros k v HB HA. rewrite lookup_union_r by done.
    by apply lookup_union_Some_l. }
  split.
  { intros k HB HA. by rewrite !lookup_union_r. }
  intros ->. apply span_eq.
  - by rewrite !set_all_name.
  - rewrite !set_all_attributes.
    by rewrite (assoc_L (∪)), (idemp_L (∪)).
  - by rewrite !set_all_events.
Qed.

(** X14.  The helpers on [None] in place of a span: [add_span_attributes] raises
    [AttributeError] at its first pair, and so returns only for the empty
    mapping; [record_exception] always raises it.  Neither calls the SDK or
    changes anything. *)
Theorem helpers_on_None_span (A : Attributes) e attributes w :
  (A ≠ ∅ ->
   add_span_attributes faults None (Some A) w
   = (Raised (AttributeError "set_attribute"), w)) /\
  add_span_attributes faults None (Some ∅) w = (Returned tt, w) /\
  record_exception faults None e attributes w
  = (Raised (AttributeError "record_exception"), w).
Proof.
  split; [|split].
  - intros HA. unfold add_span_attributes.
    destruct (map_to_list A) as [|[k v] l] eqn:Hl.
    + by apply map_to_list_empty_iff in Hl.
    + reflexivity.
  - unfold add_span_attributes. by rewrite map_to_list_empty.
  - reflexivity.
Qed.

(** ** More on the bootstrap *)

Lemma environ_after_calls cs w : environ (after_calls cs w) = environ w.
Proof.
  revert w. induction cs as [|c cs IH]; intros w; [done|].
  simpl. rewrite IH. by destruct c.
Qed.

Lemma instrumented_after_calls cs w :
  instrumented (after_calls cs w) = instrumented w ++ activations cs.
Proof.
  revert w. induction cs as [|c cs IH]; intros w; simpl.
  - by rewrite app_nil_r.
  - rewrite IH. destruct c; simpl; try done. by rewrite <- app_assoc.
Qed.

(** X15.  The bootstrap does not protect itself against being called again: a
    second call makes every call of the first a second time, and every
    library is activated twice. *)
Theorem setup_tracing_twice w :
  Forall (fun c => faults c = None) (setup_steps (deployment_environment w)) ->
  exists w1 w2,
    setup_tracing faults w = (Returned tt, w1) /\
    setup_tracing faults w1 = (Returned tt, w2) /\
    sdk_calls w2
    = sdk_calls w ++ setup_steps (deployment_environment w)
        ++ setup_steps (deployment_environment w) /\
    instrumented w2
    = instrumented w ++
        [FastAPIInstrumentation; RedisInstrumentation;
         SQLAlchemyInstrumentation; ElasticsearchInstrumentation;
         RequestsInstrumentation;
         FastAPIInstrumentation; RedisInstrumentation;
         SQLAlchemyInstrumentation; ElasticsearchInstrumentation;
         RequestsInstrumentation].
Proof.
  intros Hok.
  set (steps := setup_steps (deployment_environment w)) in *.
  assert (deployment_environment (after_calls steps w)
          = deployment_environment w) as Henv.
  { unfold deployment_environment. by rewrite environ_after_calls. }
  exists (after_calls steps w), (after_calls steps (after_calls steps w)).
  split.
  { rewrite setup_tracing_run. by apply run_calls_return. }
  split.
  { rewrite setup_tracing_run, Henv. by apply run_calls_return. }
  split.
  { by rewrite !sdk_calls_after, <- app_assoc. }
  rewrite !instrumented_after_calls, <- app_assoc. reflexivity.
Qed.

(** X16.  Nothing is undone when an activation raises: the bootstrap raises the
    same, with the provider and its processor installed and the libraries
    activated before the failing one still activated. *)
Theorem setup_tracing_no_rollback w pre i post e :
  setup_steps (deployment_environment w) = pre ++ CallInstrument i :: post ->
  Forall (fun c => faults c = None) pre ->
  faults (CallInstrument i) = Some e ->
  exists w',
    setup_tracing faults w = (Raised e, w') /\
    tracer_provider w'
    = Some {| resource := the_resource (deployment_environment w);
              span_processors := [BatchSpanProcessor the_exporter] |} /\
    instrumented w' = instrumented w ++ activations pre.
Proof.
  intros Hsteps Hpre Hi.
  exists (log_call (CallInstrument i) (after_calls pre w)).
  split.
  { rewrite setup_tracing_run, Hsteps. by apply run_calls_raise. }
  split; [|apply instrumented_after_calls].
  clear Hpre Hi. unfold setup_steps in Hsteps.
  repeat (destruct pre as [|? pre]; simplify_eq/=; try done).
Qed.

(** ** Scopes and helpers together *)

Lemma alter_middle {X} (f : X -> X) (l : list X) (x : X) (r : list X) :
  alter f (length l) (l ++ x :: r) = l ++ f x :: r.
Proof.
  rewrite <- (Nat.add_0_r (length l)). by rewrite alter_app_r.
Qed.

(** X10.  The span handed to the body is the span the manager ends: attributes the
    body adds through it are on the one span of the scope, over the initial
    ones, and that span is ended once. *)
Theorem scope_body_sets_attributes name attributes (A : Attributes) w :
  (forall c, faults c = None) ->
  exists w3,
    with_TracingSpan faults name attributes
      (fun span => add_span_attributes faults (Some span) (Some A)) w
    = (Returned tt, w3) /\
    spans w3
    = spans w ++
        [ {| span_name := name;
             span_attributes := A ∪ default ∅ attributes;
             span_events := [EndEvent] |} ].
Proof.
  intros Hok. eexists. split.
  { unfold with_TracingSpan.
    rewrite (TracingSpan_enter_returns _ _ (Hok _) (Hok _)).
    rewrite add_span_attributes_run, run_calls_return
      by (apply Forall_forall; auto).
    rewrite TracingSpan_exit_None. cbn [ts_span].
    by rewrite (Span_end_returns _ _ (Hok _)). }
  rewrite TracingSpan_init_attributes.
  simpl. rewrite spans_after_set_attributes. simpl.
  rewrite list_alter_alter_eq, alter_last. f_equal. f_equal.
  apply span_eq; simpl.
  - apply set_all_name.
  - by rewrite set_all_attributes.
  - by rewrite set_all_events.
Qed.

(** X11.  Scopes nest: the inner scope's span is started after the outer one's and
    ended before it, and each of the two is ended once. *)
Theorem nested_scopes {A} name1 attributes1 name2 attributes2 (v : A) w :
  (forall c, faults c = None) ->
  exists w',
    with_TracingSpan faults name1 attributes1
      (fun _ => with_TracingSpan faults name2 attributes2 (fun _ => ret v)) w
    = (Returned v, w') /\
    spans w'
    = spans w ++
        [span_add_event EndEvent (new_span name1 (default ∅ attributes1));
         span_add_event EndEvent (new_span name2 (default ∅ attributes2))] /\
    sdk_calls w'
    = sdk_calls w ++
        [CallGetTracer __name__;
         CallStartSpan name1 (default ∅ attributes1);
         CallGetTracer __name__;
         CallStartSpan name2 (default ∅ attributes2);
         CallEnd (S (length (spans w)));
         CallEnd (length (spans w))].
Proof.
  intros Hok. eexists. split.
  { unfold with_TracingSpan.
    rewrite (TracingSpan_enter_returns _ _ (Hok _) (Hok _)).
    rewrite (TracingSpan_enter_returns _ _ (Hok _) (Hok _)).
    unfold ret at 1.
    rewrite TracingSpan_exit_None. cbn [ts_span].
    rewrite (Span_end_returns _ _ (Hok _)).
    rewrite TracingSpan_exit_None. cbn [ts_span].
    by rewrite (Span_end_returns _ _ (Hok _)). }
  rewrite !TracingSpan_init_attributes.
  simpl. split.
  - rewrite alter_last, <- app_assoc. simpl. by rewrite alter_middle.
  - rewrite length_app, Nat.add_1_r, <- !app_assoc. reflexivity.
Qed.

End Properties.

(** * The scenarios, checked *)

(** The scenario of the specification: name ["checkout"], attributes
    [{"user_id": "42"}], body raising [ValueError("bad input")]: the error is
    recorded on the span, the span ended, and the error seen by the caller. *)
Example checkout_ValueError :
  with_TracingSpan no_faults "checkout" (Some checkout_attributes)
    (fun _ => raise (A := unit) ValueError_bad_input) fresh
  = (Raised ValueError_bad_input,
     {| environ := ∅; tracer_provider := None; instrumented := [];
        spans :=
          [ {| span_name := "checkout";
               span_attributes := checkout_attributes;
               span_events := [ExceptionEvent ValueError_bad_input ∅; EndEvent] |} ];
        sdk_calls :=
          [CallGetTracer __name__;
           CallStartSpan "checkout" checkout_attributes;
           CallRecordException 0 ValueError_bad_input ∅;
           CallEnd 0] |}).
Proof. vm_compute. reflexivity. Qed.

(** C1.  The claim asks that every exception raised by the body be recorded
    on the span before the span is ended.  Here the body raises an instance
    of an exception class whose truth value is false: the span is ended and
    the exception reaches the caller, but [record_exception] was never
    called and the span carries no recorded exception. *)
Theorem scope_falsy_exception_unrecorded :
  with_TracingSpan no_faults "checkout" (Some checkout_attributes)
    (fun _ => raise (A := unit) EmptyResult) fresh
  = (Raised EmptyResult,
     {| environ := ∅; tracer_provider := None; instrumented := [];
        spans :=
          [ {| span_name := "checkout";
               span_attributes := checkout_attributes;
               span_events := [EndEvent] |} ];
        sdk_calls :=
          [CallGetTracer __name__;
           CallStartSpan "checkout" checkout_attributes;
           CallEnd 0] |}).
Proof. vm_compute. reflexivity. Qed.

(** C2, as stated, fails.  With [ENVIRONMENT] set to the empty string the
    bootstrap returns and the installed resource has the empty string for
    [deployment.environment], where the claim has ["development"]. *)
Lemma empty_ENVIRONMENT_is_not_development :
  environ empty_ENVIRONMENT !! "ENVIRONMENT" = Some "" /\
  spec_deployment_environment empty_ENVIRONMENT = "development" /\
  (setup_tracing no_faults empty_ENVIRONMENT).1 = Returned tt /\
  installed_resource_attribute "deployment.environment"
    (setup_tracing no_faults empty_ENVIRONMENT).2 = Some "" /\
  installed_resource_attribute "deployment.environment"
    (setup_tracing no_faults empty_ENVIRONMENT).2
  ≠ Some (spec_deployment_environment empty_ENVIRONMENT).
Proof.
  assert (installed_resource_attribute "deployment.environment"
            (setup_tracing no_faults empty_ENVIRONMENT).2 = Some "") as H
    by (vm_compute; reflexivity).
  split; [vm_compute; reflexivity|]. split; [vm_compute; reflexivity|].
  split; [vm_compute; reflexivity|]. split; [exact H|].
  rewrite H. vm_compute. discriminate.
Qed.

(** ** The theorems at the scenarios *)

(** The bootstrap of a process started with [ENVIRONMENT=production]. *)
Lemma setup_tracing_resource_witness :
  exists w',
    setup_tracing no_faults production = (Returned tt, w') /\
    resource <$> tracer_provider w'
    = Some {| resource_attributes := resource_dict "production" |}.
Proof.
  eexists. split; [vm_compute; reflexivity|].
  destruct (setup_tracing_resource no_faults production) as (_ & _ & _ & _ & H).
  apply H. vm_compute. reflexivity.
Defined.

(** The bootstrap on an SDK that works, and on one in which the Redis
    activation raises: the web framework is instrumented, nothing after. *)
Lemma setup_tracing_steps_witness :
  (exists w',
     setup_tracing no_faults fresh = (Returned tt, w') /\
     instrumented w'
     = [FastAPIInstrumentation; RedisInstrumentation;
        SQLAlchemyInstrumentation; ElasticsearchInstrumentation;
        RequestsInstrumentation]) /\
  (exists w',
     setup_tracing redis_fails fresh = (Raised RuntimeError_sdk, w') /\
     instrumented w' = [FastAPIInstrumentation]).
Proof.
  split.
  - destruct (proj1 (setup_tracing_steps no_faults fresh))
      as (w' & Hrun & _ & _ & Hinstrumented & _).
    { apply Forall_forall. intros c _. reflexivity. }
    exists w'. split; [exact Hrun|exact Hinstrumented].
  - destruct (proj2 (setup_tracing_steps redis_fails fresh)
                (take 8 (setup_steps "development"))
                (CallInstrument RedisInstrumentation)
                (drop 9 (setup_steps "development"))
                RuntimeError_sdk)
      as (w' & Hrun & Hw' & _).
    + reflexivity.
    + repeat constructor.
    + reflexivity.
    + exists w'. split; [exact Hrun|]. rewrite Hw'. reflexivity.
Defined.

(** [create_custom_span("checkout")] in a fresh process. *)
Lemma create_custom_span_starts_witness :
  exists w',
    create_custom_span no_faults "checkout" None fresh = (Returned 0, w') /\
    spans w' = [new_span "checkout" ∅].
Proof.
  destruct (create_custom_span_starts no_faults "checkout" None fresh
              eq_refl eq_refl) as (w' & Hrun & _ & Hspans & _).
  exists w'. split; [exact Hrun|exact Hspans].
Defined.

(** Overwriting [user_id] on the checkout span. *)
Lemma add_span_attributes_sets_witness :
  exists w' sp',
    add_span_attributes no_faults (Some 0) (Some {["user_id" := AStr "43"]})
      checkout_entered = (Returned tt, w') /\
    spans w' !! 0 = Some sp' /\
    span_attributes sp' !! "user_id" = Some (AStr "43").
Proof.
  destruct (proj2 (add_span_attributes_sets no_faults)
              0 {["user_id" := AStr "43"]} checkout_entered
              (new_span "checkout" checkout_attributes)
              eq_refl (fun _ _ _ => eq_refl))
    as (w' & sp' & Hrun & Hsp' & Hset & _).
  exists w', sp'. split; [exact Hrun|]. split; [exact Hsp'|].
  apply Hset. apply lookup_singleton_eq.
Defined.

(** Recording [ValueError("bad input")] on the checkout span. *)
Lemma record_exception_records_witness :
  exists w' sp',
    record_exception no_faults (Some 0) ValueError_bad_input None
      checkout_entered = (Returned tt, w') /\
    spans w' !! 0 = Some sp' /\
    span_events sp' = [ExceptionEvent ValueError_bad_input ∅] /\
    end_count sp' = 0.
Proof.
  destruct (record_exception_records no_faults 0 ValueError_bad_input None
              checkout_entered (new_span "checkout" checkout_attributes)
              eq_refl eq_refl)
    as (w' & sp' & Hrun & Hsp' & Hevents & _ & Hend & _).
  exists w', sp'. split; [exact Hrun|]. split; [exact Hsp'|].
  split; [exact Hevents|exact Hend].
Defined.

(** A checkout scope whose body returns 7. *)
Lemma scope_normal_exit_witness :
  exists w3,
    with_TracingSpan no_faults "checkout" (Some checkout_attributes)
      (fun _ => ret 7) fresh = (Returned 7, w3) /\
    exists sp3,
      spans w3 !! 0 = Some sp3 /\
      span_events sp3 = [EndEvent] /\
      end_count sp3 = 1 /\
      recorded_exceptions (span_events sp3) = [].
Proof.
  destruct (scope_normal_exit no_faults "checkout" (Some checkout_attributes)
              (fun _ => ret 7) fresh checkout_manager 0 checkout_entered
              7 checkout_entered)
    as (w3 & Hrun & _ & _ & _ & Hfresh).
  - vm_compute. reflexivity.
  - reflexivity.
  - reflexivity.
  - exists w3. split; [exact Hrun|]. apply Hfresh. reflexivity.
Defined.

(** A checkout scope whose body raises, on an SDK that cannot record. *)
Lemma exit_record_raises_skips_end_witness :
  exists w',
    with_TracingSpan record_fails "checkout" (Some checkout_attributes)
      (fun _ => raise (A := unit) ValueError_bad_input) fresh
    = (Raised RuntimeError_sdk, w') /\
    spans w' = [new_span "checkout" checkout_attributes].
Proof.
  destruct (exit_record_raises_skips_end record_fails checkout_manager 0
              ValueError_bad_input RuntimeError_sdk checkout_entered
              eq_refl eq_refl eq_refl)
    as (w' & _ & _ & Hspans & Hscope).
  exists w'. split; [|exact Hspans].
  apply Hscope with (w1 := checkout_entered).
  - vm_compute. reflexivity.
  - reflexivity.
Defined.

(** A checkout scope whose body raises an exception that converts to
    false. *)
Lemma exit_falsy_exception_not_recorded_witness :
  exists w',
    with_TracingSpan no_faults "checkout" (Some checkout_attributes)
      (fun _ => raise (A := unit) EmptyResult) fresh
    = (Raised EmptyResult, w') /\
    spans w'
    = [ {| span_name := "checkout"; span_attributes := checkout_attributes;
           span_events := [EndEvent] |} ].
Proof.
  destruct (exit_falsy_exception_not_recorded no_faults checkout_manager
              EmptyResult checkout_entered eq_refl) as [_ Hexit].
  destruct (Hexit 0 eq_refl eq_refl) as (w' & _ & _ & Hspans & Hscope).
  exists w'. split; [|exact Hspans].
  apply Hscope with (w1 := checkout_entered).
  - vm_compute. reflexivity.
  - reflexivity.
Defined.

(** ** The further properties at the scenarios *)

(** The checkout scope of the specification's scenario. *)
Lemma scope_faulting_exit_witness :
  exists w3,
    with_TracingSpan no_faults "checkout" (Some checkout_attributes)
      (fun _ => raise (A := unit) ValueError_bad_input) fresh
    = (Raised ValueError_bad_input, w3) /\
    sdk_calls w3
    = [CallGetTracer __name__; CallStartSpan "checkout" checkout_attributes;
       CallRecordException 0 ValueError_bad_input ∅; CallEnd 0].
Proof.
  destruct (scope_faulting_exit no_faults "checkout" (Some checkout_attributes)
              (fun _ => raise (A := unit) ValueError_bad_input) fresh
              checkout_manager 0 checkout_entered ValueError_bad_input
              checkout_entered)
    as (w3 & Hrun & Hcalls & _).
  - vm_compute. reflexivity.
  - reflexivity.
  - reflexivity.
  - reflexivity.
  - reflexivity.
  - exists w3. split; [exact Hrun|exact Hcalls].
Defined.

(** Entering the checkout scope in a fresh process. *)
Lemma TracingSpan_enter_starts_witness :
  exists self w1,
    TracingSpan_enter no_faults (TracingSpan_init "checkout" None) fresh
    = (Returned (self, 0), w1) /\
    ts_span self = Some 0 /\
    spans w1 = [new_span "checkout" ∅].
Proof.
  destruct (TracingSpan_enter_starts no_faults "checkout" None fresh
              eq_refl eq_refl) as (self & w1 & Hrun & Hself & Hspans & _).
  exists self, w1. split; [exact Hrun|]. split; [exact Hself|exact Hspans].
Defined.


(** A checkout scope on an SDK that cannot give a tracer: the body, which
    would return, is not run. *)
Lemma scope_enter_raises_witness :
  with_TracingSpan get_tracer_fails "checkout" (Some checkout_attributes)
    (fun _ => ret 7) fresh
  = (Raised RuntimeError_sdk, log_call (CallGetTracer __name__) fresh).
Proof.
  apply (proj1 (scope_enter_raises get_tracer_fails "checkout"
                  (Some checkout_attributes) (fun _ => ret 7) fresh
                  RuntimeError_sdk)).
  reflexivity.
Defined.

(** A checkout scope whose body returns 7, on an SDK that cannot end a
    span: the 7 is lost. *)
Lemma end_raises_replaces_outcome_witness :
  exists w3,
    with_TracingSpan end_fails "checkout" (Some checkout_attributes)
      (fun _ => ret 7) fresh
    = (Raised RuntimeError_sdk, w3) /\
    spans w3 = [new_span "checkout" checkout_attributes].
Proof.
  destruct (end_raises_replaces_outcome end_fails "checkout"
              (Some checkout_attributes) (fun _ => ret 7) fresh
              checkout_manager 0 checkout_entered RuntimeError_sdk)
    as [Hreturned _].
  - vm_compute. reflexivity.
  - reflexivity.
  - destruct (Hreturned 7 checkout_entered eq_refl) as (w3 & Hrun & Hspans).
    exists w3. split; [exact Hrun|exact Hspans].
Defined.

(** Exiting the checkout scope leaves the request span alone. *)
Lemma exit_touches_own_span_only_witness :
  spans (TracingSpan_exit no_faults second_manager
           (Some ValueError_bad_input) two_spans).2 !! 0
  = Some (new_span "request" ∅).
Proof.
  destruct (exit_touches_own_span_only no_faults second_manager
              (Some ValueError_bad_input) two_spans) as (_ & _ & _ & _ & H).
  rewrite (H 0) by discriminate. reflexivity.
Defined.

(** The checkout manager used twice in a row in a fresh process. *)
Lemma manager_reused_in_sequence_witness :
  exists self1 w1 w2 self2 w3 w4,
    TracingSpan_enter no_faults (TracingSpan_init "checkout" None) fresh
    = (Returned (self1, 0), w1) /\
    TracingSpan_exit no_faults self1 None w1 = (Returned tt, w2) /\
    TracingSpan_enter no_faults self1 w2 = (Returned (self2, 1), w3) /\
    TracingSpan_exit no_faults self2 None w3 = (Returned tt, w4) /\
    spans w4
    = [span_add_event EndEvent (new_span "checkout" ∅);
       span_add_event EndEvent (new_span "checkout" ∅)].
Proof.
  exact (manager_reused_in_sequence no_faults (TracingSpan_init "checkout" None)
           fresh eq_refl eq_refl (fun _ => eq_refl)).
Defined.

(** The checkout manager entered twice before it is exited. *)
Lemma manager_reused_nested_witness :
  exists self1 w1 self2 w2 w3 w4,
    TracingSpan_enter no_faults (TracingSpan_init "checkout" None) fresh
    = (Returned (self1, 0), w1) /\
    TracingSpan_enter no_faults self1 w1 = (Returned (self2, 1), w2) /\
    TracingSpan_exit no_faults self2 None w2 = (Returned tt, w3) /\
    TracingSpan_exit no_faults self2 None w3 = (Returned tt, w4) /\
    spans w4
    = [new_span "checkout" ∅;
       span_add_event EndEvent
         (span_add_event EndEvent (new_span "checkout" ∅))].
Proof.
  exact (manager_reused_nested no_faults (TracingSpan_init "checkout" None)
           fresh eq_refl eq_refl (fun _ => eq_refl)).
Defined.

(** Setting [user_id] on an SDK that cannot set attributes. *)
Lemma add_span_attributes_raises_witness :
  exists e' w',
    add_span_attributes set_attribute_fails (Some 0) (Some checkout_attributes)
      checkout_entered = (Raised e', w').
Proof.
  apply (proj2 (add_span_attributes_raises set_attribute_fails 0
                  checkout_attributes checkout_entered)
           "user_id" (AStr "42") RuntimeError_sdk).
  - apply lookup_singleton_eq.
  - reflexivity.
Defined.

(** Setting [user_id] twice and [tier] once on the checkout span. *)
Lemma add_span_attributes_twice_witness :
  exists w1 w2 sp2,
    add_span_attributes no_faults (Some 0)
      (Some (<["tier" := AStr "gold"]> {["user_id" := AStr "43"]}))
      checkout_entered = (Returned tt, w1) /\
    add_span_attributes no_faults (Some 0) (Some {["user_id" := AStr "44"]}) w1
    = (Returned tt, w2) /\
    spans w2 !! 0 = Some sp2 /\
    span_attributes sp2 !! "user_id" = Some (AStr "44") /\
    span_attributes sp2 !! "tier" = Some (AStr "gold").
Proof.
  destruct (add_span_attributes_twice no_faults 0
              (<["tier" := AStr "gold"]> {["user_id" := AStr "43"]})
              {["user_id" := AStr "44"]} checkout_entered
              (new_span "checkout" checkout_attributes)
              eq_refl (fun _ _ => eq_refl))
    as (w1 & w2 & sp1 & sp2 & Hrun1 & Hrun2 & _ & Hsp2 & _ & Hsecond & Hfirst & _).
  exists w1, w2, sp2. split; [exact Hrun1|]. split; [exact Hrun2|].
  split; [exact Hsp2|]. split.
  - apply Hsecond. apply lookup_singleton_eq.
  - apply Hfirst.
    + apply lookup_singleton_ne. discriminate.
    + apply lookup_insert_eq.
Defined.

(** The helpers on the span of a manager that was not entered. *)
Lemma helpers_on_None_span_witness :
  add_span_attributes no_faults None (Some checkout_attributes) fresh
  = (Raised (AttributeError "set_attribute"), fresh).
Proof.
  apply (proj1 (helpers_on_None_span no_faults checkout_attributes
                  ValueError_bad_input None fresh)).
  apply map_non_empty_singleton.
Defined.

(** The bootstrap called twice in a fresh process. *)
Lemma setup_tracing_twice_witness :
  exists w1 w2,
    setup_tracing no_faults fresh = (Returned tt, w1) /\
    setup_tracing no_faults w1 = (Returned tt, w2) /\
    instrumented w2
    = [FastAPIInstrumentation; RedisInstrumentation;
       SQLAlchemyInstrumentation; ElasticsearchInstrumentation;
       RequestsInstrumentation;
       FastAPIInstrumentation; RedisInstrumentation;
       SQLAlchemyInstrumentation; ElasticsearchInstrumentation;
       RequestsInstrumentation].
Proof.
  destruct (setup_tracing_twice no_faults fresh)
    as (w1 & w2 & Hrun1 & Hrun2 & _ & Hinstrumented).
  - apply Forall_forall. intros c _. reflexivity.
  - exists w1, w2. split; [exact Hrun1|]. split; [exact Hrun2|].
    exact Hinstrumented.
Defined.

(** The bootstrap on an SDK in which the Redis activation raises. *)
Lemma setup_tracing_no_rollback_witness :
  exists w',
    setup_tracing redis_fails fresh = (Raised RuntimeError_sdk, w') /\
    tracer_provider w'
    = Some {| resource := the_resource "development";
              span_processors := [BatchSpanProcessor the_exporter] |} /\
    instrumented w' = [FastAPIInstrumentation].
Proof.
  destruct (setup_tracing_no_rollback redis_fails fresh
              (take 8 (setup_steps "development")) RedisInstrumentation
              (drop 9 (setup_steps "development")) RuntimeError_sdk)
    as (w' & Hrun & Hprovider & Hinstrumented).
  - reflexivity.
  - repeat constructor.
  - reflexivity.
  - exists w'. split; [exact Hrun|]. split; [exact Hprovider|].
    exact Hinstrumented.
Defined.

(** A checkout scope whose body sets [tier]. *)
Lemma scope_body_sets_attributes_witness :
  exists w3,
    with_TracingSpan no_faults "checkout" (Some checkout_attributes)
      (fun span =>
         add_span_attributes no_faults (Some span)
           (Some {["tier" := AStr "gold"]})) fresh
    = (Returned tt, w3) /\
    spans w3
    = [ {| span_name := "checkout";
           span_attributes := {["tier" := AStr "gold"]} ∪ checkout_attributes;
           span_events := [EndEvent] |} ].
Proof.
  exact (scope_body_sets_attributes no_faults "checkout"
           (Some checkout_attributes) {["tier" := AStr "gold"]} fresh
           (fun _ => eq_refl)).
Defined.

(** A payment scope inside a checkout scope. *)
Lemma nested_scopes_witness :
  exists w',
    with_TracingSpan no_faults "checkout" None
      (fun _ => with_TracingSpan no_faults "payment" None (fun _ => ret 7)) fresh
    = (Returned 7, w') /\
    spans w'
    = [span_add_event EndEvent (new_span "checkout" ∅);
       span_add_event EndEvent (new_span "payment" ∅)] /\
    sdk_calls w'
    = [CallGetTracer __name__; CallStartSpan "checkout" ∅;
       CallGetTracer __name__; CallStartSpan "payment" ∅;
       CallEnd 1; CallEnd 0].
Proof.
  exact (nested_scopes no_faults "checkout" None "payment" None 7 fresh
           (fun _ => eq_refl)).
Defined.
